(** * I2CDevice: a shallow embedding of [src/I2CDevice.h]

    The header declares two classes.  [I2CDevice] stores a 7-bit bus
    address, a reference to a [TwoWire] transport and the status byte of the
    last [endTransmission]; every method is a one- or two-call delegation to
    the transport.  [HasI2CDevice] owns one [I2CDevice] and forwards three
    methods to it.

    Types follow the header: [uint8_t] is a byte, [size_t] is [N], [int] is
    [Z].  The [TwoWire] and [Print] classes belong to the Arduino core, so
    they enter as interfaces (type classes over the state of the object the
    reference points to).  Methods are state transformers over a store that
    holds the object and the transport it refers to. *)

From Stdlib Require Import String Ascii ZArith NArith List Lia.
From Stdlib Require Import Strings.Byte Numbers.DecimalString.
Import ListNotations.

Set Implicit Arguments.

(** ** C types *)

Definition uint8_t : Type := Byte.byte.

(** Integer promotion of a [uint8_t] to [int]. *)
Definition promote (b : uint8_t) : Z := Z.of_N (Byte.to_N b).

(** ** A state monad for method bodies *)

Definition M (S A : Type) : Type := S -> A * S.

Definition ret {S A : Type} (a : A) : M S A := fun s => (a, s).

Definition bind {S A B : Type} (m : M S A) (k : A -> M S B) : M S B :=
  fun s => let (a, s') := m s in k a s'.

Definition gets {S A : Type} (f : S -> A) : M S A := fun s => (f s, s).

Definition modify {S : Type} (f : S -> S) : M S unit := fun s => (tt, f s).

Declare Scope method_scope.
Delimit Scope method_scope with method.
Notation "x <- m ;; k" := (bind m (fun x => k))
  (at level 61, m at next level, right associativity) : method_scope.
Notation "m ;; k" := (bind m (fun _ => k))
  (at level 61, right associativity) : method_scope.
Local Open Scope method_scope.

(** ** The collaborators: Arduino's [TwoWire] and [Print]

    [W] is the state of a [TwoWire] object.  Each member function takes the
    state before the call and yields its return value with the state after.
    The signatures are those the header relies on:
    [beginTransmission(uint8_t)], [size_t write(uint8_t)],
    [size_t write(buffer, size_t)], [int available()], [int read()],
    [uint8_t endTransmission()], [uint8_t endTransmission(uint8_t)],
    [uint8_t requestFrom(uint8_t, uint8_t)].

    Arduino's [TwoWire] is a [Stream] and so a [Print]: a [TwoWire] can be
    handed to [printBusStatus] as the object to print to.  [wire_print] and
    [wire_println] are the two [Print] member functions [printBusStatus]
    calls, [print] on a C string and [println] on an [unsigned char], on
    the transport. *)
Class TwoWire (W : Type) : Type := {
  wire_beginTransmission : uint8_t -> W -> W;
  wire_write : uint8_t -> W -> N * W;
  wire_write_buf : list uint8_t -> N -> W -> N * W;
  wire_available : W -> Z * W;
  wire_read : W -> Z * W;
  wire_endTransmission : W -> uint8_t * W;
  wire_endTransmission_stop : uint8_t -> W -> uint8_t * W;
  wire_requestFrom : uint8_t -> uint8_t -> W -> uint8_t * W;
  wire_print : string -> W -> W;
  wire_println : uint8_t -> W -> W
}.

(** [P] is the state of a [Print] object; [printBusStatus] uses
    [print] on a C string and [println] on an [unsigned char]. *)
Class Print (P : Type) : Type := {
  print_str : string -> P -> P;
  println_uint8 : uint8_t -> P -> P
}.

(** What a [Print&] argument can refer to: a [Print] object of its own,
    disjoint from the transport, whose state is carried along; or the
    [TwoWire] object the [wire] reference of the device points to (the
    caller can get at it through [getWireInstance]). *)
Inductive sink (P : Type) : Type :=
| Separate (p : P)
| TheWire.

Arguments TheWire {P}.

(** The store a method runs in: the object itself and the [TwoWire] object
    its [wire] reference points to.  The reference is bound at construction
    and never reseated, so only the referred state appears here. *)
Record Store (O W : Type) : Type := mkStore {
  this : O;
  wire : W
}.

(** A call of a member function of [wire]. *)
Definition call_wire {O W A : Type} (f : W -> A * W) : M (Store O W) A :=
  fun s => let (a, w') := f (wire s) in (a, mkStore (this s) w').

Definition call_wire_void {O W : Type} (f : W -> W) : M (Store O W) unit :=
  fun s => (tt, mkStore (this s) (f (wire s))).

(** ** class I2CDevice

    Every public member function is modelled except [getWireInstance] and
    [getWireHardwareAddress], which hand out the [wire] reference and its
    machine address and read no other member. *)

Module I2CDevice.

(** Bus result constants. *)
Definition SUCCESS : uint8_t := x00.
Definition DATA_TOO_LONG : uint8_t := x01.
Definition NACK_ON_ADDRESS : uint8_t := x02.
Definition NACK_ON_DATA : uint8_t := x03.
Definition OTHER_ERROR : uint8_t := x04.

(** The data members ([wire] lives in the store). *)
Record obj : Type := mk {
  dev_address : uint8_t;
  m_status : uint8_t
}.

(** [I2CDevice(TwoWire& tw, uint8_t address) : wire(tw), dev_address(address)].
    [m_status] has no initialiser: [indeterminate] stands for whatever
    byte the storage holds. *)
Definition new (address : uint8_t) (indeterminate : uint8_t) : obj :=
  mk address indeterminate.

Definition set_status (v : uint8_t) (o : obj) : obj :=
  mk (dev_address o) v.

Section Methods.
Context {W : Type} {TW : TwoWire W}.

Local Abbreviation method := (M (Store obj W)).

(** [return dev_address;] *)
Definition getAddress : method uint8_t :=
  gets (fun s => dev_address (this s)).

(** [return m_status;] *)
Definition getStatus : method uint8_t :=
  gets (fun s => m_status (this s)).

(** The assignment [m_status = v]. *)
Definition assign_m_status (v : uint8_t) : method unit :=
  modify (fun s => mkStore (set_status v (this s)) (wire s)).

(** [wire.beginTransmission(getAddress());] *)
Definition beginTransmission : method unit :=
  a <- getAddress ;;
  call_wire_void (wire_beginTransmission a).

(** [return wire.write(data);] *)
Definition write (data : uint8_t) : method N :=
  call_wire (wire_write data).

(** [return wire.write(data, size);], the overload that takes a buffer and
    its size. *)
Definition write_buf (data : list uint8_t) (size : N) : method N :=
  call_wire (wire_write_buf data size).

(** [return wire.available();] *)
Definition available : method Z :=
  call_wire wire_available.

(** [return wire.read();] *)
Definition read : method Z :=
  call_wire wire_read.

(** [m_status = wire.endTransmission(); return m_status;] *)
Definition endTransmission : method uint8_t :=
  r <- call_wire wire_endTransmission ;;
  assign_m_status r ;;
  gets (fun s => m_status (this s)).

(** [m_status = wire.endTransmission(sendStop); return m_status;] *)
Definition endTransmission_stop (sendStop : uint8_t) : method uint8_t :=
  r <- call_wire (wire_endTransmission_stop sendStop) ;;
  assign_m_status r ;;
  gets (fun s => m_status (this s)).

(** [return wire.requestFrom(getAddress(), noBytes);] *)
Definition requestBytes (noBytes : uint8_t) : method uint8_t :=
  a <- getAddress ;;
  call_wire (wire_requestFrom a noBytes).

(** [return m_status;] *)
Definition getBusStatus : method uint8_t :=
  gets (fun s => m_status (this s)).

(** [printable.print("Current I2C status : "); printable.println(m_status);]
    The sink is passed by reference.  A separate object comes in as
    [Separate p] and its state after the two calls is handed back; when
    [printable] is the transport itself the two calls are calls on
    [wire]. *)
Definition printBusStatus {P : Type} {PR : Print P} (printable : sink P)
  : method (sink P) :=
  match printable with
  | Separate p =>
      st <- gets (fun s => m_status (this s)) ;;
      ret (Separate (println_uint8 st (print_str "Current I2C status : " p)))
  | TheWire =>
      call_wire_void (wire_print "Current I2C status : ") ;;
      st <- gets (fun s => m_status (this s)) ;;
      call_wire_void (wire_println st) ;;
      ret TheWire
  end.

(** [this->wire.beginTransmission(dev_address);]
    [return (this->wire.endTransmission() == 0);]
    The comparison is on the promoted [int]. *)
Definition detect : method bool :=
  a <- gets (fun s => dev_address (this s)) ;;
  call_wire_void (wire_beginTransmission a) ;;
  r <- call_wire wire_endTransmission ;;
  ret (Z.eqb (promote r) 0).

End Methods.

End I2CDevice.

(** ** class HasI2CDevice *)

Module HasI2CDevice.

(** The single data member. *)
Record obj : Type := mk {
  bus : I2CDevice.obj
}.

(** [HasI2CDevice(TwoWire& tw, uint8_t address) : bus(tw, address)]. *)
Definition new (address : uint8_t) (indeterminate : uint8_t) : obj :=
  mk (I2CDevice.new address indeterminate).

Section Methods.
Context {W : Type} {TW : TwoWire W}.

Local Abbreviation method := (M (Store obj W)).

(** A call of a member function of the member [bus]: the callee runs
    with [bus] as its [this], on the same transport. *)
Definition call_bus {A : Type} (m : M (Store I2CDevice.obj W) A)
  : method A :=
  fun s =>
    let (a, s') := m (mkStore (bus (this s)) (wire s)) in
    (a, mkStore (mk (this s')) (wire s')).

(** [return bus.getBusStatus();] *)
Definition getBusStatus : method uint8_t :=
  call_bus I2CDevice.getBusStatus.

(** [bus.printBusStatus(printable);] *)
Definition printBusStatus {P : Type} {PR : Print P} (printable : sink P)
  : method (sink P) :=
  call_bus (I2CDevice.printBusStatus printable).

(** [return this->bus.detect();] *)
Definition detect : method bool :=
  call_bus I2CDevice.detect.

End Methods.

End HasI2CDevice.

(** ** Client programs: sequences of method calls *)

Section Clients.
Context {W : Type} {TW : TwoWire W} {P : Type} {PR : Print P}.

(** One call of a public member function of [I2CDevice], with its
    arguments. *)
Inductive op : Type :=
| OpGetAddress
| OpGetStatus
| OpBeginTransmission
| OpWrite (data : uint8_t)
| OpWriteBuf (data : list uint8_t) (size : N)
| OpAvailable
| OpRead
| OpEndTransmission
| OpEndTransmissionStop (sendStop : uint8_t)
| OpRequestBytes (noBytes : uint8_t)
| OpGetBusStatus
| OpPrintBusStatus (printable : sink P)
| OpDetect.

(** What a call hands back to the caller ([RPrinted] is the sink after
    [printBusStatus]). *)
Inductive result : Type :=
| RVoid
| RByte (b : uint8_t)
| RCount (n : N)
| RInt (z : Z)
| RBool (b : bool)
| RPrinted (p : sink P).

Definition exec (o : op) : M (Store I2CDevice.obj W) result :=
  match o with
  | OpGetAddress => b <- I2CDevice.getAddress ;; ret (RByte b)
  | OpGetStatus => b <- I2CDevice.getStatus ;; ret (RByte b)
  | OpBeginTransmission => I2CDevice.beginTransmission ;; ret RVoid
  | OpWrite d => n <- I2CDevice.write d ;; ret (RCount n)
  | OpWriteBuf d sz => n <- I2CDevice.write_buf d sz ;; ret (RCount n)
  | OpAvailable => z <- I2CDevice.available ;; ret (RInt z)
  | OpRead => z <- I2CDevice.read ;; ret (RInt z)
  | OpEndTransmission => b <- I2CDevice.endTransmission ;; ret (RByte b)
  | OpEndTransmissionStop s =>
      b <- I2CDevice.endTransmission_stop s ;; ret (RByte b)
  | OpRequestBytes n => b <- I2CDevice.requestBytes n ;; ret (RByte b)
  | OpGetBusStatus => b <- I2CDevice.getBusStatus ;; ret (RByte b)
  | OpPrintBusStatus p => q <- I2CDevice.printBusStatus p ;; ret (RPrinted q)
  | OpDetect => b <- I2CDevice.detect ;; ret (RBool b)
  end.

Fixpoint run (ops : list op) : M (Store I2CDevice.obj W) (list result) :=
  match ops with
  | [] => ret []
  | o :: rest => r <- exec o ;; rs <- run rest ;; ret (r :: rs)
  end.

(** The public member functions of [HasI2CDevice]. *)
Inductive owner_op : Type :=
| OwnerGetBusStatus
| OwnerPrintBusStatus (printable : sink P)
| OwnerDetect.

Definition exec_owner (o : owner_op) : M (Store HasI2CDevice.obj W) result :=
  match o with
  | OwnerGetBusStatus => b <- HasI2CDevice.getBusStatus ;; ret (RByte b)
  | OwnerPrintBusStatus p =>
      q <- HasI2CDevice.printBusStatus p ;; ret (RPrinted q)
  | OwnerDetect => b <- HasI2CDevice.detect ;; ret (RBool b)
  end.

Fixpoint run_owner (ops : list owner_op)
  : M (Store HasI2CDevice.obj W) (list result) :=
  match ops with
  | [] => ret []
  | o :: rest => r <- exec_owner o ;; rs <- run_owner rest ;; ret (r :: rs)
  end.

(** The same operation called directly on the composed device. *)
Definition on_device (o : owner_op) : op :=
  match o with
  | OwnerGetBusStatus => OpGetBusStatus
  | OwnerPrintBusStatus p => OpPrintBusStatus p
  | OwnerDetect => OpDetect
  end.

End Clients.

Arguments op : clear implicits.
Arguments result : clear implicits.
Arguments owner_op : clear implicits.

(** ** Observing the calls a method makes on the transport *)

Inductive call : Type :=
| CallBeginTransmission (address : uint8_t)
| CallWrite (data : uint8_t)
| CallWriteBuf (data : list uint8_t) (size : N)
| CallAvailable
| CallRead
| CallEndTransmission
| CallEndTransmissionStop (sendStop : uint8_t)
| CallRequestFrom (address quantity : uint8_t)
| CallPrint (text : string)
| CallPrintln (b : uint8_t).

(** A transport that behaves as [inner] and keeps the list of the calls it
    received, oldest first. *)
Record Logged (W : Type) : Type := mkLogged {
  calls : list call;
  inner : W
}.

Definition logged {W A : Type} (c : call) (f : W -> A * W)
  : Logged W -> A * Logged W :=
  fun l => let (a, w') := f (inner l) in (a, mkLogged (calls l ++ [c]) w').

#[export] Instance Logged_TwoWire (W : Type) {TW : TwoWire W}
  : TwoWire (Logged W) := {
  wire_beginTransmission a l :=
    mkLogged (calls l ++ [CallBeginTransmission a])
             (wire_beginTransmission a (inner l));
  wire_write d := logged (CallWrite d) (wire_write d);
  wire_write_buf d sz := logged (CallWriteBuf d sz) (wire_write_buf d sz);
  wire_available := logged CallAvailable wire_available;
  wire_read := logged CallRead wire_read;
  wire_endTransmission := logged CallEndTransmission wire_endTransmission;
  wire_endTransmission_stop s :=
    logged (CallEndTransmissionStop s) (wire_endTransmission_stop s);
  wire_requestFrom a n := logged (CallRequestFrom a n) (wire_requestFrom a n);
  wire_print t l :=
    mkLogged (calls l ++ [CallPrint t]) (wire_print t (inner l));
  wire_println b l :=
    mkLogged (calls l ++ [CallPrintln b]) (wire_println b (inner l))
}.

(** The calls a method makes when run on object [o] and transport [w]. *)
Definition calls_made {O W A : Type} (m : M (Store O (Logged W)) A)
  (o : O) (w : W) : list call :=
  calls (wire (snd (m (mkStore o (mkLogged [] w))))).

(** ** What the wrapper expects of its transport

    The header only forwards [write], [available] and [read]; what they
    return is the transport's business.  The two contracts below are the
    ones the documentation of [read] ("the data byte or -1 if the buffer is
    empty") and of [write] ("the number of bytes written") rely on. *)

Section Contracts.
Context {W : Type} {TW : TwoWire W}.

(** A transport whose [read] yields -1 whenever its [available] yields 0. *)
Definition rx_contract : Prop :=
  forall w : W, fst (wire_available w) = 0%Z -> fst (wire_read w) = (-1)%Z.

(** A transport that accepts, of a buffer of [N] bytes, as many as its
    outbound buffer has room for; [room w = None] is unlimited room. *)
Definition tx_contract (room : W -> option N) : Prop :=
  forall (data : list uint8_t) (w : W),
    fst (wire_write_buf data (N.of_nat (length data)) w) =
    match room w with
    | None => N.of_nat (length data)
    | Some m => N.min (N.of_nat (length data)) m
    end.

End Contracts.

(** ** A simulated transport and a text sink *)

(** Modelled from the spec: the [TwoWire] class is part of the Arduino core
    and not of this repository; this is the simulated transport of the
    spec's testable properties.  It answers [endTransmission] with a status
    fixed per address, answers [requestFrom] with the bytes a peer holds,
    queues outbound bytes while its buffer has room, and hands received
    bytes out in FIFO order with -1 once they are exhausted. *)
Record FakeWire : Type := mkFake {
  fk_ack : list (uint8_t * uint8_t);
  fk_peer : list (uint8_t * list uint8_t);
  fk_room : option N;
  fk_target : uint8_t;
  fk_tx : list uint8_t;
  fk_rx : list uint8_t
}.

Fixpoint assoc {A : Type} (a : uint8_t) (l : list (uint8_t * A)) : option A :=
  match l with
  | [] => None
  | (k, v) :: rest => if Byte.eqb a k then Some v else assoc a rest
  end.

(** The status the simulated bus yields for a transaction to [a]: the one
    listed for it, and a NACK on the address where no peer is listed. *)
Definition fake_status (w : FakeWire) (a : uint8_t) : uint8_t :=
  match assoc a (fk_ack w) with
  | Some s => s
  | None => I2CDevice.NACK_ON_ADDRESS
  end.

Definition fake_bytes (w : FakeWire) (a : uint8_t) : list uint8_t :=
  match assoc a (fk_peer w) with
  | Some l => l
  | None => []
  end.

Definition byte_of_nat (n : nat) : uint8_t :=
  match Byte.of_nat n with
  | Some b => b
  | None => xff
  end.

Definition fake_begin (a : uint8_t) (w : FakeWire) : FakeWire :=
  mkFake (fk_ack w) (fk_peer w) (fk_room w) a [] (fk_rx w).

Definition fake_write (d : uint8_t) (w : FakeWire) : N * FakeWire :=
  match fk_room w with
  | None =>
      (1%N, mkFake (fk_ack w) (fk_peer w) None (fk_target w)
                   (fk_tx w ++ [d]) (fk_rx w))
  | Some m =>
      if N.eqb m 0 then (0%N, w)
      else (1%N, mkFake (fk_ack w) (fk_peer w) (Some (N.pred m)) (fk_target w)
                        (fk_tx w ++ [d]) (fk_rx w))
  end.

Fixpoint fake_write_all (data : list uint8_t) (w : FakeWire) : N * FakeWire :=
  match data with
  | [] => (0%N, w)
  | d :: rest =>
      let (k, w1) := fake_write d w in
      if N.eqb k 0 then (0%N, w1)
      else let (n, w2) := fake_write_all rest w1 in (N.succ n, w2)
  end.

Definition fake_write_buf (data : list uint8_t) (size : N) (w : FakeWire)
  : N * FakeWire :=
  fake_write_all (firstn (N.to_nat size) data) w.

Definition fake_available (w : FakeWire) : Z * FakeWire :=
  (Z.of_nat (length (fk_rx w)), w).

Definition fake_read (w : FakeWire) : Z * FakeWire :=
  match fk_rx w with
  | [] => ((-1)%Z, w)
  | b :: rest =>
      (promote b,
       mkFake (fk_ack w) (fk_peer w) (fk_room w) (fk_target w) (fk_tx w) rest)
  end.

Definition fake_end (w : FakeWire) : uint8_t * FakeWire :=
  (fake_status w (fk_target w),
   mkFake (fk_ack w) (fk_peer w) (fk_room w) (fk_target w) [] (fk_rx w)).

Definition fake_request (a n : uint8_t) (w : FakeWire) : uint8_t * FakeWire :=
  let got := firstn (Byte.to_nat n) (fake_bytes w a) in
  (byte_of_nat (length got),
   mkFake (fk_ack w) (fk_peer w) (fk_room w) (fk_target w) (fk_tx w) got).

(** Printing to the simulated transport queues the characters as [write]
    does: the text of [print], and for [println] the number in decimal and
    the end of the line. *)
Definition fake_print (t : string) (w : FakeWire) : FakeWire :=
  snd (fake_write_all (list_byte_of_string t) w).

Definition fake_println (b : uint8_t) (w : FakeWire) : FakeWire :=
  fake_print
    (NilZero.string_of_uint (N.to_uint (Byte.to_N b))
       ++ String "013" (String "010" EmptyString))%string w.

#[export] Instance FakeWire_TwoWire : TwoWire FakeWire := {
  wire_beginTransmission := fake_begin;
  wire_write := fake_write;
  wire_write_buf := fake_write_buf;
  wire_available := fake_available;
  wire_read := fake_read;
  wire_endTransmission := fake_end;
  wire_endTransmission_stop _ := fake_end;
  wire_requestFrom := fake_request;
  wire_print := fake_print;
  wire_println := fake_println
}.

(** Modelled from the spec: the text sink of [printBusStatus]; Arduino's
    [Print] is not part of this repository.  [println] of an
    [unsigned char] writes the number in decimal and ends the line. *)
#[export] Instance TextSink : Print string := {
  print_str s p := (p ++ s)%string;
  println_uint8 b p :=
    (p ++ NilZero.string_of_uint (N.to_uint (Byte.to_N b))
       ++ String "013" (String "010" EmptyString))%string
}.

(** A bus on which only address 0x50 acknowledges, and answers a read with
    the bytes 0x11 0x22 0x33. *)
Definition idle_bus (room : option N) : FakeWire :=
  mkFake [(x50, I2CDevice.SUCCESS)] [(x50, [x11; x22; x33])] room x00 [] [].

(** A bus on which the peer at 0x50 answers reads but refuses the data of a
    write (NACK on data). *)
Definition writes_nacked : FakeWire :=
  mkFake [(x50, I2CDevice.NACK_ON_DATA)] [(x50, [x11; x22; x33])]
         None x00 [] [].

(** ** Notions the properties are stated with *)

(** A method overwrites the stored status when the status it leaves does not
    depend on the status it found: two devices at the same address, on the
    same transport, end with the same [m_status] whatever each held
    before. *)
Definition overwrites_status {W A : Type}
  (m : M (Store I2CDevice.obj W) A) : Prop :=
  forall (d1 d2 : I2CDevice.obj) (w : W),
    I2CDevice.dev_address d1 = I2CDevice.dev_address d2 ->
    I2CDevice.m_status (this (snd (m (mkStore d1 w)))) =
    I2CDevice.m_status (this (snd (m (mkStore d2 w)))).

(** The status [getBusStatus] reports once [m] has run. *)
Definition status_after {W A : Type} {TW : TwoWire W}
  (m : M (Store I2CDevice.obj W) A) (s : Store I2CDevice.obj W) : uint8_t :=
  fst (I2CDevice.getBusStatus (snd (m s))).

(** The five codes of the bus result constants. *)
Definition status_codes : list uint8_t :=
  [I2CDevice.SUCCESS; I2CDevice.DATA_TOO_LONG; I2CDevice.NACK_ON_ADDRESS;
   I2CDevice.NACK_ON_DATA; I2CDevice.OTHER_ERROR].

(** The calls that end a transmission, the only ones that assign
    [m_status]. *)
Definition ends_transmission {P : Type} (o : op P) : bool :=
  match o with
  | OpEndTransmission | OpEndTransmissionStop _ => true
  | _ => false
  end.

(** The store of the owner seen from its member [bus], and back. *)
Definition bus_store {W : Type} (s : Store HasI2CDevice.obj W)
  : Store I2CDevice.obj W :=
  mkStore (HasI2CDevice.bus (this s)) (wire s).

Definition owner_store {W : Type} (s : Store I2CDevice.obj W)
  : Store HasI2CDevice.obj W :=
  mkStore (HasI2CDevice.mk (this s)) (wire s).

(** The calls one member function makes on the transport, for a device at
    address [a] with status [st] on record: what the properties below
    compare the code with. *)
Definition calls_of_op {P : Type} (a st : uint8_t) (o : op P) : list call :=
  match o with
  | OpGetAddress | OpGetStatus | OpGetBusStatus => []
  | OpPrintBusStatus (Separate _) => []
  | OpPrintBusStatus TheWire =>
      [CallPrint "Current I2C status : "; CallPrintln st]
  | OpBeginTransmission => [CallBeginTransmission a]
  | OpWrite d => [CallWrite d]
  | OpWriteBuf d sz => [CallWriteBuf d sz]
  | OpAvailable => [CallAvailable]
  | OpRead => [CallRead]
  | OpEndTransmission => [CallEndTransmission]
  | OpEndTransmissionStop sendStop => [CallEndTransmissionStop sendStop]
  | OpRequestBytes n => [CallRequestFrom a n]
  | OpDetect => [CallBeginTransmission a; CallEndTransmission]
  end.

(** The status on record once call [o] has returned [r], when it was
    [before]: the byte an [endTransmission] returned, and [before] after any
    other call. *)
Definition recorded {P : Type} (o : op P) (r : result P) (before : uint8_t)
  : uint8_t :=
  match r with
  | RByte b => if ends_transmission o then b else before
  | _ => before
  end.

(** The status on record after the calls [ops] returned [rs]: what the last
    [endTransmission] among them returned, and [before] when there is
    none. *)
Fixpoint last_recorded {P : Type} (ops : list (op P)) (rs : list (result P))
  (before : uint8_t) : uint8_t :=
  match ops, rs with
  | o :: ops', r :: rs' => last_recorded ops' rs' (recorded o r before)
  | _, _ => before
  end.

(** The calls of a program whose calls returned [rs], for a device at
    address [a] that had status [st] on record at the start. *)
Fixpoint calls_of_run {P : Type} (a st : uint8_t) (ops : list (op P))
  (rs : list (result P)) : list call :=
  match ops, rs with
  | o :: ops', r :: rs' =>
      calls_of_op a st o ++ calls_of_run a (recorded o r st) ops' rs'
  | _, _ => []
  end.

(** A call that prints to the transport itself. *)
Definition prints_to_wire {P : Type} (o : op P) : bool :=
  match o with
  | OpPrintBusStatus TheWire => true
  | _ => false
  end.

(** A program that never prints to the transport. *)
Definition never_prints_to_wire {P : Type} (ops : list (op P)) : bool :=
  forallb (fun o => negb (prints_to_wire o)) ops.

(** ** Two devices on one transport

    Both objects are constructed on the same [TwoWire] (by default the
    global [Wire]), so their [wire] references name one object: the store
    holds the two devices and that single transport. *)

Inductive which : Type := DevA | DevB.

Definition which_eqb (i j : which) : bool :=
  match i, j with
  | DevA, DevA | DevB, DevB => true
  | _, _ => false
  end.

Record Pair : Type := mkPair {
  devA : I2CDevice.obj;
  devB : I2CDevice.obj
}.

Definition select (i : which) (p : Pair) : I2CDevice.obj :=
  match i with
  | DevA => devA p
  | DevB => devB p
  end.

Definition update (i : which) (d : I2CDevice.obj) (p : Pair) : Pair :=
  match i with
  | DevA => mkPair d (devB p)
  | DevB => mkPair (devA p) d
  end.

(** A call of a member function on device [i]: the callee runs with that
    device as its [this], on the shared transport. *)
Definition call_on {W A : Type} (i : which)
  (m : M (Store I2CDevice.obj W) A) : M (Store Pair W) A :=
  fun s =>
    let (a, s') := m (mkStore (select i (this s)) (wire s)) in
    (a, mkStore (update i (this s') (this s)) (wire s')).

Fixpoint run_shared {W P : Type} {TW : TwoWire W} {PR : Print P}
  (prog : list (which * op P)) : M (Store Pair W) (list (result P)) :=
  match prog with
  | [] => ret []
  | (i, o) :: rest =>
      r <- call_on i (exec o) ;; rs <- run_shared rest ;; ret (r :: rs)
  end.

(** The pair once device [i] has made call [o] and got [r]: only the
    status [i] has on record can have changed. *)
Definition after_call {P : Type} (i : which) (o : op P) (r : result P)
  (p : Pair) : Pair :=
  update i
    (I2CDevice.set_status
       (recorded o r (I2CDevice.m_status (select i p))) (select i p))
    p.

(** The calls the transport is to see from an interleaved program whose
    calls returned [rs]: those of each call in turn, with the address and
    the recorded status of the device it was made on. *)
Fixpoint calls_of_shared {P : Type} (p : Pair)
  (prog : list (which * op P)) (rs : list (result P)) : list call :=
  match prog, rs with
  | (i, o) :: prog', r :: rs' =>
      calls_of_op (I2CDevice.dev_address (select i p))
                  (I2CDevice.m_status (select i p)) o
      ++ calls_of_shared (after_call i o r p) prog' rs'
  | _, _ => []
  end.

(** The status device [i] has on record after an interleaved program: what
    the last [endTransmission] made on [i] itself returned. *)
Fixpoint last_recorded_on {P : Type} (i : which)
  (prog : list (which * op P)) (rs : list (result P)) (before : uint8_t)
  : uint8_t :=
  match prog, rs with
  | (j, o) :: prog', r :: rs' =>
      last_recorded_on i prog' rs'
        (if which_eqb i j then recorded o r before else before)
  | _, _ => before
  end.

(** A program none of whose calls ends a transmission. *)
Definition never_ends {P : Type} (ops : list (op P)) : bool :=
  forallb (fun o => negb (ends_transmission o)) ops.

(** * Properties *)

Import I2CDevice (SUCCESS, DATA_TOO_LONG, NACK_ON_ADDRESS, NACK_ON_DATA,
                  OTHER_ERROR, dev_address, m_status).

(** ** Bytes *)

Lemma promote_zero_iff (b : uint8_t) : promote b = 0%Z <-> b = x00.
Proof.
  unfold promote. split.
  - intros H.
    assert (E : Byte.to_N b = 0%N) by lia.
    pose proof (Byte.of_to_N b) as R. rewrite E in R.
    cbn in R. congruence.
  - intros ->. reflexivity.
Qed.

Lemma byte_of_nat_small (n : nat) :
  n <= 255 -> Byte.to_nat (byte_of_nat n) = n.
Proof.
  intros H. unfold byte_of_nat.
  destruct (Byte.of_nat n) as [b|] eqn:E.
  - now apply Byte.to_of_nat.
  - apply Byte.of_nat_None_iff in E. lia.
Qed.

(** ** The method bodies in closed form

    Each equation gives the value a method returns and the store it leaves,
    in terms of the one transport call it makes. *)

Section Equations.
Context {W : Type} {TW : TwoWire W}.
Implicit Types (d : I2CDevice.obj) (w : W).

Lemma getAddress_eq d w :
  I2CDevice.getAddress (mkStore d w) = (dev_address d, mkStore d w).
Proof. reflexivity. Qed.

Lemma getStatus_eq d w :
  I2CDevice.getStatus (mkStore d w) = (m_status d, mkStore d w).
Proof. reflexivity. Qed.

Lemma getBusStatus_eq d w :
  I2CDevice.getBusStatus (mkStore d w) = (m_status d, mkStore d w).
Proof. reflexivity. Qed.

Lemma beginTransmission_eq d w :
  I2CDevice.beginTransmission (mkStore d w) =
  (tt, mkStore d (wire_beginTransmission (dev_address d) w)).
Proof. reflexivity. Qed.

Lemma write_eq d w b :
  I2CDevice.write b (mkStore d w) =
  (fst (wire_write b w), mkStore d (snd (wire_write b w))).
Proof.
  unfold I2CDevice.write, call_wire; cbn.
  now destruct (wire_write b w).
Qed.

Lemma write_buf_eq d w data size :
  I2CDevice.write_buf data size (mkStore d w) =
  (fst (wire_write_buf data size w),
   mkStore d (snd (wire_write_buf data size w))).
Proof.
  unfold I2CDevice.write_buf, call_wire; cbn.
  now destruct (wire_write_buf data size w).
Qed.

Lemma available_eq d w :
  I2CDevice.available (mkStore d w) =
  (fst (wire_available w), mkStore d (snd (wire_available w))).
Proof.
  unfold I2CDevice.available, call_wire; cbn.
  now destruct (wire_available w).
Qed.

Lemma read_eq d w :
  I2CDevice.read (mkStore d w) =
  (fst (wire_read w), mkStore d (snd (wire_read w))).
Proof.
  unfold I2CDevice.read, call_wire; cbn.
  now destruct (wire_read w).
Qed.

Lemma endTransmission_eq d w :
  I2CDevice.endTransmission (mkStore d w) =
  (fst (wire_endTransmission w),
   mkStore (I2CDevice.set_status (fst (wire_endTransmission w)) d)
           (snd (wire_endTransmission w))).
Proof.
  unfold I2CDevice.endTransmission, I2CDevice.assign_m_status,
    call_wire, bind, modify, gets; cbn.
  now destruct (wire_endTransmission w).
Qed.

Lemma endTransmission_stop_eq d w sendStop :
  I2CDevice.endTransmission_stop sendStop (mkStore d w) =
  (fst (wire_endTransmission_stop sendStop w),
   mkStore
     (I2CDevice.set_status (fst (wire_endTransmission_stop sendStop w)) d)
     (snd (wire_endTransmission_stop sendStop w))).
Proof.
  unfold I2CDevice.endTransmission_stop, I2CDevice.assign_m_status,
    call_wire, bind, modify, gets; cbn.
  now destruct (wire_endTransmission_stop sendStop w).
Qed.

Lemma requestBytes_eq d w noBytes :
  I2CDevice.requestBytes noBytes (mkStore d w) =
  (fst (wire_requestFrom (dev_address d) noBytes w),
   mkStore d (snd (wire_requestFrom (dev_address d) noBytes w))).
Proof.
  unfold I2CDevice.requestBytes, I2CDevice.getAddress,
    call_wire, bind, gets; cbn.
  now destruct (wire_requestFrom (dev_address d) noBytes w).
Qed.

Lemma printBusStatus_eq {P : Type} {PR : Print P} d w (p : P) :
  I2CDevice.printBusStatus (Separate p) (mkStore d w) =
  (Separate
     (println_uint8 (m_status d) (print_str "Current I2C status : " p)),
   mkStore d w).
Proof. reflexivity. Qed.

Lemma printBusStatus_wire_eq {P : Type} {PR : Print P} d w :
  I2CDevice.printBusStatus (P:=P) TheWire (mkStore d w) =
  (TheWire,
   mkStore d
     (wire_println (m_status d) (wire_print "Current I2C status : " w))).
Proof. reflexivity. Qed.

Lemma detect_eq d w :
  I2CDevice.detect (mkStore d w) =
  (Z.eqb
     (promote
        (fst (wire_endTransmission
                (wire_beginTransmission (dev_address d) w)))) 0,
   mkStore d
     (snd (wire_endTransmission
             (wire_beginTransmission (dev_address d) w)))).
Proof.
  unfold I2CDevice.detect, call_wire, call_wire_void, bind, gets, ret; cbn.
  now destruct (wire_endTransmission _).
Qed.

End Equations.

Create Rewrite HintDb method_eqs.

#[global] Hint Rewrite
  @getAddress_eq @getStatus_eq @getBusStatus_eq @beginTransmission_eq
  @write_eq @write_buf_eq @available_eq @read_eq @endTransmission_eq
  @endTransmission_stop_eq @requestBytes_eq @printBusStatus_eq
  @printBusStatus_wire_eq @detect_eq
  : method_eqs.

(** Bring the store into the form the equations expect and apply them. *)
Ltac by_equations :=
  repeat match goal with
         | s : Store _ _ |- _ => destruct s
         | p : sink _ |- _ => destruct p
         end;
  autorewrite with method_eqs; cbn [fst snd this wire].

(** ** What a single call leaves of the object *)

Section Frames.
Context {W : Type} {TW : TwoWire W} {P : Type} {PR : Print P}.
Implicit Types (s : Store I2CDevice.obj W) (o : op P).

Lemma exec_keeps_address o s :
  dev_address (this (snd (exec o s))) = dev_address (this s).
Proof.
  destruct s as [d w].
  destruct o; unfold exec, bind, ret; by_equations; reflexivity.
Qed.

Lemma exec_keeps_status o s :
  ends_transmission o = false ->
  this (snd (exec o s)) = this s.
Proof.
  destruct s as [d w].
  destruct o; cbn [ends_transmission]; intros E; try discriminate E;
    unfold exec, bind, ret; by_equations; reflexivity.
Qed.

Lemma run_keeps_address (ops : list (op P)) s :
  dev_address (this (snd (run ops s))) = dev_address (this s).
Proof.
  revert s. induction ops as [|o rest IH]; intros s.
  - reflexivity.
  - cbn [run]. unfold bind at 1.
    destruct (exec o s) as [r s1] eqn:E1.
    unfold bind at 1.
    destruct (run rest s1) as [rs s2] eqn:E2.
    cbn [ret snd].
    change s2 with (snd (rs, s2)). rewrite <- E2, IH.
    change s1 with (snd (r, s1)). rewrite <- E1.
    apply exec_keeps_address.
Qed.

End Frames.

(** ** The stored status *)

Section Status.
Context {W : Type} {TW : TwoWire W}.
Implicit Types (d : I2CDevice.obj) (w : W).

Lemma endTransmission_overwrites :
  overwrites_status (W:=W) I2CDevice.endTransmission.
Proof.
  intros d1 d2 w _. now rewrite !endTransmission_eq.
Qed.

Lemma endTransmission_stop_overwrites (sendStop : uint8_t) :
  overwrites_status (W:=W) (I2CDevice.endTransmission_stop sendStop).
Proof.
  intros d1 d2 w _. now rewrite !endTransmission_stop_eq.
Qed.

(** C1, as the code has it: both overloads of [endTransmission] overwrite
    the stored status with the status the transport returned, so that
    [getBusStatus] then reports the outcome of that transaction;
    [requestBytes] hands back the count the transport's [requestFrom]
    returned for the device's address and leaves the object, and so the
    stored status, as it found it. *)
Theorem last_status_follows_endTransmission d w (sendStop noBytes : uint8_t) :
  (overwrites_status (W:=W) I2CDevice.endTransmission
   /\ status_after I2CDevice.endTransmission (mkStore d w)
      = fst (wire_endTransmission w))
  /\ (overwrites_status (W:=W) (I2CDevice.endTransmission_stop sendStop)
      /\ status_after (I2CDevice.endTransmission_stop sendStop) (mkStore d w)
         = fst (wire_endTransmission_stop sendStop w))
  /\ (fst (I2CDevice.requestBytes noBytes (mkStore d w))
      = fst (wire_requestFrom (dev_address d) noBytes w)
      /\ this (snd (I2CDevice.requestBytes noBytes (mkStore d w))) = d
      /\ status_after (I2CDevice.requestBytes noBytes) (mkStore d w)
         = m_status d).
Proof.
  unfold status_after. repeat split.
  - apply endTransmission_overwrites.
  - now rewrite endTransmission_eq.
  - apply endTransmission_stop_overwrites.
  - now rewrite endTransmission_stop_eq.
  - now rewrite requestBytes_eq.
  - now rewrite requestBytes_eq.
  - now rewrite requestBytes_eq.
Qed.

(** C3: when the transport's [endTransmission] yields one of the five status
    codes [s], the device's [endTransmission] returns [s], and [getBusStatus]
    called next reports [s]: the byte is handed on as it came. *)
Theorem status_passthrough d w (s : uint8_t) :
  In s status_codes ->
  fst (wire_endTransmission w) = s ->
  fst (I2CDevice.endTransmission (mkStore d w)) = s
  /\ status_after I2CDevice.endTransmission (mkStore d w) = s.
Proof.
  intros _ <-. unfold status_after.
  rewrite endTransmission_eq. split; reflexivity.
Qed.

(** The overload that takes [sendStop] hands the status on in the same
    way. *)
Lemma status_passthrough_stop d w (s sendStop : uint8_t) :
  fst (wire_endTransmission_stop sendStop w) = s ->
  fst (I2CDevice.endTransmission_stop sendStop (mkStore d w)) = s
  /\ status_after (I2CDevice.endTransmission_stop sendStop) (mkStore d w) = s.
Proof.
  intros <-. unfold status_after.
  rewrite endTransmission_stop_eq. split; reflexivity.
Qed.

(** C9: [detect] leaves the object as it was, whatever the transport
    answers: [getBusStatus] and [getStatus] report after the probe what
    they reported before it. *)
Theorem detect_keeps_status d w :
  this (snd (I2CDevice.detect (mkStore d w))) = d
  /\ status_after I2CDevice.detect (mkStore d w)
     = fst (I2CDevice.getBusStatus (mkStore d w))
  /\ fst (I2CDevice.getStatus (snd (I2CDevice.detect (mkStore d w))))
     = fst (I2CDevice.getStatus (mkStore d w)).
Proof.
  unfold status_after. rewrite detect_eq. repeat split.
Qed.

(** C10: [getStatus] and [getBusStatus] return the same byte, the stored
    [m_status]; both leave the object and the transport untouched and make
    no call on the transport. *)
Theorem getStatus_getBusStatus_agree (s : Store I2CDevice.obj W) :
  fst (I2CDevice.getStatus s) = fst (I2CDevice.getBusStatus s)
  /\ fst (I2CDevice.getStatus s) = m_status (this s)
  /\ snd (I2CDevice.getStatus s) = s
  /\ snd (I2CDevice.getBusStatus s) = s
  /\ calls_made I2CDevice.getStatus (this s) (wire s) = []
  /\ calls_made I2CDevice.getBusStatus (this s) (wire s) = [].
Proof.
  destruct s as [d w]. unfold calls_made.
  repeat split.
Qed.

End Status.

(** ** The address *)

Section Address.
Context {W : Type} {TW : TwoWire W} {P : Type} {PR : Print P}.
Implicit Types (d : I2CDevice.obj) (w : W).

(** C2: a device constructed with address [a] answers [getAddress] with
    [a], at once and after any sequence of calls of its member functions. *)
Theorem address_immutable (a indeterminate : uint8_t) w (ops : list (op P)) :
  fst (I2CDevice.getAddress (mkStore (I2CDevice.new a indeterminate) w)) = a
  /\ fst (I2CDevice.getAddress
            (snd (run ops (mkStore (I2CDevice.new a indeterminate) w)))) = a.
Proof.
  split; [reflexivity|].
  pose proof (run_keeps_address ops (mkStore (I2CDevice.new a indeterminate) w))
    as H.
  destruct (run ops _) as [rs [d' w']]. exact H.
Qed.

(** C8: [beginTransmission] makes one call on the transport,
    [beginTransmission] with the device's address; [requestBytes] makes one
    call, [requestFrom] with the device's address and the requested count,
    and returns what that call returned. *)
Theorem transactions_use_configured_address d w (noBytes : uint8_t) :
  I2CDevice.beginTransmission (mkStore d w)
  = (tt, mkStore d (wire_beginTransmission (dev_address d) w))
  /\ calls_made I2CDevice.beginTransmission d w
     = [CallBeginTransmission (dev_address d)]
  /\ I2CDevice.requestBytes noBytes (mkStore d w)
     = (fst (wire_requestFrom (dev_address d) noBytes w),
        mkStore d (snd (wire_requestFrom (dev_address d) noBytes w)))
  /\ calls_made (I2CDevice.requestBytes noBytes) d w
     = [CallRequestFrom (dev_address d) noBytes].
Proof.
  unfold calls_made. rewrite !beginTransmission_eq, !requestBytes_eq.
  repeat split.
  cbn. unfold logged. cbn.
  now destruct (wire_requestFrom (dev_address d) noBytes w).
Qed.

(** C4: [detect] calls [beginTransmission] with the device's address and
    then [endTransmission], nothing else; it returns [true] exactly when
    that [endTransmission] yields [SUCCESS], and [false] for every other
    status. *)
Theorem detect_probe d w :
  let s := fst (wire_endTransmission
                  (wire_beginTransmission (dev_address d) w)) in
  calls_made I2CDevice.detect d w
  = [CallBeginTransmission (dev_address d); CallEndTransmission]
  /\ wire (snd (I2CDevice.detect (mkStore d w)))
     = snd (wire_endTransmission (wire_beginTransmission (dev_address d) w))
  /\ (fst (I2CDevice.detect (mkStore d w)) = true <-> s = SUCCESS)
  /\ (s <> SUCCESS -> fst (I2CDevice.detect (mkStore d w)) = false).
Proof.
  intros s. unfold calls_made. rewrite !detect_eq. cbn [fst snd wire].
  fold s. repeat split.
  - cbn. unfold logged. cbn.
    now destruct (wire_endTransmission (wire_beginTransmission _ w)).
  - intros H. apply Z.eqb_eq in H. now apply promote_zero_iff.
  - intros H. apply Z.eqb_eq. now apply promote_zero_iff.
  - intros H. apply Z.eqb_neq. intros E. apply H.
    now apply promote_zero_iff.
Qed.

End Address.

(** ** Writing and reading *)

Section Buffers.
Context {W : Type} {TW : TwoWire W}.
Implicit Types (d : I2CDevice.obj) (w : W).

(** C5: on a transport whose [read] yields -1 whenever its [available]
    yields 0, in every state where the device's [available] reports 0 its
    [read] returns -1, and the object, with its recorded status, stays as it
    was. *)
Theorem read_sentinel (s : Store I2CDevice.obj W) :
  rx_contract (W:=W) ->
  fst (I2CDevice.available s) = 0%Z ->
  fst (I2CDevice.read s) = (-1)%Z
  /\ this (snd (I2CDevice.read s)) = this s
  /\ status_after I2CDevice.read s = fst (I2CDevice.getBusStatus s).
Proof.
  intros contract. unfold status_after. destruct s as [d w].
  rewrite available_eq, read_eq. cbn [fst snd this].
  intros empty. repeat split. now apply contract.
Qed.

(** C6: on a transport that accepts as many bytes as it has room for,
    [write] of a buffer of [n] bytes returns [n] when the room is unlimited
    or at least [n], and the room [m] when [m < n]; in both cases the object,
    with its recorded status, stays as it was. *)
Theorem write_count_fidelity (room : W -> option N) d w
  (data : list uint8_t) :
  tx_contract room ->
  let n := N.of_nat (length data) in
  let r := I2CDevice.write_buf data n (mkStore d w) in
  (room w = None -> fst r = n)
  /\ (forall m, room w = Some m -> (n <= m)%N -> fst r = n)
  /\ (forall m, room w = Some m -> (m < n)%N -> fst r = m)
  /\ this (snd r) = d
  /\ status_after (I2CDevice.write_buf data n) (mkStore d w) = m_status d.
Proof.
  intros contract n r. unfold status_after. subst r.
  rewrite write_buf_eq. cbn [fst snd this]. subst n.
  pose proof (contract data w) as accepted.
  split; [|split; [|split; [|split; reflexivity]]]; rewrite accepted.
  - now intros ->.
  - intros m -> Hle. now apply N.min_l.
  - intros m -> Hlt. apply N.min_r. lia.
Qed.

End Buffers.

(** ** The owner *)

Section Owner.
Context {W : Type} {TW : TwoWire W} {P : Type} {PR : Print P}.

Lemma bus_owner_store (s : Store I2CDevice.obj W) :
  bus_store (owner_store s) = s.
Proof. now destruct s. Qed.

Lemma call_bus_eq {A : Type} (m : M (Store I2CDevice.obj W) A)
  (s : Store HasI2CDevice.obj W) :
  HasI2CDevice.call_bus m s
  = (fst (m (bus_store s)), owner_store (snd (m (bus_store s)))).
Proof.
  unfold HasI2CDevice.call_bus, bus_store, owner_store.
  now destruct (m _).
Qed.

(** One call on the owner is the same call on its [bus]. *)
Lemma exec_owner_forwards (o : owner_op P) (s : Store HasI2CDevice.obj W) :
  exec_owner o s
  = (fst (exec (on_device o) (bus_store s)),
     owner_store (snd (exec (on_device o) (bus_store s)))).
Proof.
  destruct o; cbn [exec_owner exec on_device]; unfold bind, ret;
    unfold HasI2CDevice.getBusStatus, HasI2CDevice.printBusStatus,
      HasI2CDevice.detect;
    rewrite call_bus_eq;
    match goal with
    | |- context [?m (bus_store s)] => now destruct (m (bus_store s))
    end.
Qed.

Lemma run_owner_forwards (ops : list (owner_op P))
  (s : Store HasI2CDevice.obj W) :
  run_owner ops s
  = (fst (run (map on_device ops) (bus_store s)),
     owner_store (snd (run (map on_device ops) (bus_store s)))).
Proof.
  revert s. induction ops as [|o rest IH]; intros s.
  - now destruct s as [[b] w].
  - cbn [run_owner run map]. unfold bind.
    rewrite exec_owner_forwards.
    destruct (exec (on_device o) (bus_store s)) as [r s1].
    cbn [fst snd]. rewrite IH, bus_owner_store.
    now destruct (run (map on_device rest) s1).
Qed.

(** C7: every sequence of [getBusStatus], [printBusStatus] and [detect]
    calls on an owner returns what the same calls return on its [bus],
    leaves the transport and the sinks in the same state and the member
    [bus] as the device would be; the owner consists of that member
    alone. *)
Theorem owner_forwards_to_bus (o : HasI2CDevice.obj) (w : W)
  (ops : list (owner_op P)) :
  let owner_run := run_owner ops (mkStore o w) in
  let device_run :=
    run (map on_device ops) (mkStore (HasI2CDevice.bus o) w) in
  fst owner_run = fst device_run
  /\ wire (snd owner_run) = wire (snd device_run)
  /\ HasI2CDevice.bus (this (snd owner_run)) = this (snd device_run)
  /\ o = HasI2CDevice.mk (HasI2CDevice.bus o).
Proof.
  intros owner_run device_run. subst owner_run device_run.
  rewrite run_owner_forwards. unfold bus_store. cbn [this wire fst snd].
  repeat split. now destruct o.
Qed.

End Owner.

(** ** The simulated transport meets the contracts *)

Lemma FakeWire_rx_contract : rx_contract (W:=FakeWire).
Proof.
  intros w. cbn. unfold fake_read.
  destruct (fk_rx w) as [|b rest]; cbn.
  - reflexivity.
  - intros H. lia.
Qed.

Lemma fake_write_all_count (data : list uint8_t) :
  forall w : FakeWire,
    fst (fake_write_all data w) =
    match fk_room w with
    | None => N.of_nat (length data)
    | Some m => N.min (N.of_nat (length data)) m
    end.
Proof.
  induction data as [|b rest IH]; intros w.
  - cbn. destruct (fk_room w); [apply eq_sym, N.min_l; lia | reflexivity].
  - cbn [fake_write_all length]. unfold fake_write.
    destruct (fk_room w) as [m|] eqn:E.
    + destruct (N.eqb_spec m 0) as [->|Hm].
      * cbn. lia.
      * cbn [N.eqb].
        destruct (fake_write_all rest _) as [n w2] eqn:R.
        cbn [fst].
        change n with (fst (n, w2)). rewrite <- R, IH. cbn [fk_room]. lia.
    + cbn [N.eqb].
      destruct (fake_write_all rest _) as [n w2] eqn:R.
      cbn [fst].
      change n with (fst (n, w2)). rewrite <- R, IH. cbn [fk_room]. lia.
Qed.

Lemma FakeWire_tx_contract : tx_contract (W:=FakeWire) fk_room.
Proof.
  intros data w. cbn. unfold fake_write_buf.
  rewrite Nat2N.id, firstn_all. apply fake_write_all_count.
Qed.

(** ** Runs on the simulated transport *)

(** A complete exchange: a device at 0x50 writes one byte, the
    peer acknowledges, two bytes are requested and read back in order, and a
    third [read] finds the buffer empty. *)
Example end_to_end_scenario :
  fst (run (P:=string)
         [OpBeginTransmission; OpWrite xaa; OpEndTransmission;
          OpRequestBytes x02; OpRead; OpRead; OpRead]
         (mkStore (I2CDevice.new x50 xff) (idle_bus None)))
  = [RVoid; RCount 1; RByte SUCCESS; RByte x02;
     RInt 17; RInt 34; RInt (-1)].
Proof. reflexivity. Qed.

Example detect_present_and_absent :
  fst (I2CDevice.detect (mkStore (I2CDevice.new x50 xff) (idle_bus None)))
  = true
  /\ fst (I2CDevice.detect (mkStore (I2CDevice.new x51 xff) (idle_bus None)))
     = false.
Proof. split; reflexivity. Qed.

Example printBusStatus_text :
  fst (I2CDevice.printBusStatus (P:=string) (Separate EmptyString)
         (mkStore (I2CDevice.mk x50 NACK_ON_DATA) (idle_bus None)))
  = Separate
      ("Current I2C status : 3"
         ++ String "013" (String "010" EmptyString))%string.
Proof. reflexivity. Qed.

(** With the transport as the sink the same text is queued on the
    transport: 24 bytes, where a separate sink leaves none. *)
Example printBusStatus_to_the_wire :
  let s := mkStore (I2CDevice.mk x50 NACK_ON_DATA) (idle_bus None) in
  fk_tx (wire (snd (I2CDevice.printBusStatus (P:=string) TheWire s)))
  = list_byte_of_string
      ("Current I2C status : 3"
         ++ String "013" (String "010" EmptyString))%string
  /\ fk_tx (wire (snd (I2CDevice.printBusStatus (Separate EmptyString) s)))
     = [].
Proof. split; reflexivity. Qed.

(** C1, against the claim that [requestBytes] overwrites the stored status:
    after a write that the peer refuses (status 3), a request that delivers
    both bytes leaves [getBusStatus] at 3; the status after [requestBytes]
    is the status before it, not an outcome of the request. *)
Lemma requestBytes_keeps_stale_status :
  fst (run (P:=string)
         [OpBeginTransmission; OpWrite xaa; OpEndTransmission;
          OpRequestBytes x02; OpGetBusStatus]
         (mkStore (I2CDevice.new x50 x00) writes_nacked))
  = [RVoid; RCount 1; RByte NACK_ON_DATA; RByte x02; RByte NACK_ON_DATA]
  /\ ~ overwrites_status (W:=FakeWire) (I2CDevice.requestBytes x02).
Proof.
  split; [reflexivity|].
  intros H.
  specialize (H (I2CDevice.mk x50 SUCCESS) (I2CDevice.mk x50 NACK_ON_DATA)
                writes_nacked eq_refl).
  cbn in H. discriminate H.
Qed.

(** C3 at a peer that does not answer: the transport yields status 2 for
    address 0x51, and the device returns and then reports 2. *)
Lemma status_passthrough_witness :
  fst (I2CDevice.endTransmission
         (mkStore (I2CDevice.new x51 x00) (fake_begin x51 (idle_bus None))))
  = NACK_ON_ADDRESS
  /\ status_after I2CDevice.endTransmission
       (mkStore (I2CDevice.new x51 x00) (fake_begin x51 (idle_bus None)))
     = NACK_ON_ADDRESS.
Proof.
  apply status_passthrough.
  - unfold status_codes. cbn. right; right; left; reflexivity.
  - reflexivity.
Defined.

(** C5 on the simulated transport before any request: nothing is
    available, [read] returns -1 and the status stays 3. *)
Lemma read_sentinel_witness :
  let s := mkStore (I2CDevice.mk x50 NACK_ON_DATA) (idle_bus None) in
  fst (I2CDevice.read s) = (-1)%Z
  /\ this (snd (I2CDevice.read s)) = this s
  /\ status_after I2CDevice.read s = fst (I2CDevice.getBusStatus s).
Proof.
  apply read_sentinel.
  - exact FakeWire_rx_contract.
  - reflexivity.
Defined.

(** C6 on the simulated transport: three bytes into room for two are
    accepted as two, and the status stays as it was. *)
Lemma write_count_fidelity_witness :
  fst (I2CDevice.write_buf [x01; x02; x03] 3
         (mkStore (I2CDevice.mk x50 SUCCESS) (idle_bus (Some 2%N))))
  = 2%N
  /\ fst (I2CDevice.write_buf [x01; x02; x03] 3
            (mkStore (I2CDevice.mk x50 SUCCESS) (idle_bus None)))
     = 3%N.
Proof.
  split.
  - exact (proj1 (proj2 (proj2
      (write_count_fidelity (I2CDevice.mk x50 SUCCESS) (idle_bus (Some 2%N))
         [x01; x02; x03] FakeWire_tx_contract))) 2%N eq_refl eq_refl).
  - exact (proj1
      (write_count_fidelity (I2CDevice.mk x50 SUCCESS) (idle_bus None)
         [x01; x02; x03] FakeWire_tx_contract) eq_refl).
Defined.

(** * Whole programs

    The properties above are about one call.  The ones below follow a device
    through any sequence of calls. *)

Section Programs.
Context {W : Type} {TW : TwoWire W} {P : Type} {PR : Print P}.
Implicit Types (s : Store I2CDevice.obj W) (o : op P) (ops : list (op P)).

Lemma run_cons o ops s :
  run (o :: ops) s
  = (fst (exec o s) :: fst (run ops (snd (exec o s))),
     snd (run ops (snd (exec o s)))).
Proof.
  cbn [run]. unfold bind, ret.
  destruct (exec o s) as [r s1]. cbn [fst snd].
  now destruct (run ops s1).
Qed.

Lemma exec_records o s :
  m_status (this (snd (exec o s)))
  = recorded o (fst (exec o s)) (m_status (this s)).
Proof.
  destruct s as [d w].
  destruct o; unfold exec, bind, ret; by_equations; reflexivity.
Qed.

Lemma run_keeps_object ops s :
  never_ends ops = true -> this (snd (run ops s)) = this s.
Proof.
  revert s. induction ops as [|o rest IH]; intros s quiet; [reflexivity|].
  apply andb_prop in quiet. destruct quiet as [Ho Hrest].
  rewrite run_cons. cbn [snd]. rewrite (IH _ Hrest).
  apply exec_keeps_status.
  now destruct (ends_transmission o).
Qed.

(** X1: only [endTransmission] writes to the object: a program that never ends
    a transmission, whatever else it calls ([detect], [requestBytes],
    [write], [read], ...), leaves the device, and so what [getBusStatus]
    reports, exactly as it was. *)
Theorem status_survives_other_calls ops s :
  never_ends ops = true ->
  this (snd (run ops s)) = this s
  /\ status_after (run ops) s = fst (I2CDevice.getBusStatus s).
Proof.
  intros quiet.
  pose proof (run_keeps_object ops s quiet) as kept.
  split; [exact kept|].
  unfold status_after. destruct (run ops s) as [rs [d' w']].
  destruct s as [d w]. cbn in kept |- *. now subst d'.
Qed.

Lemma run_records ops s :
  m_status (this (snd (run ops s)))
  = last_recorded ops (fst (run ops s)) (m_status (this s)).
Proof.
  revert s. induction ops as [|o rest IH]; intros s; [reflexivity|].
  rewrite run_cons. cbn [fst snd last_recorded].
  now rewrite IH, exec_records.
Qed.

(** X2: after any program, [getBusStatus] reports the byte that the last
    [endTransmission] of the program returned (either overload), and the
    status from before the program when it ended no transmission. *)
Theorem status_is_last_endTransmission ops s :
  status_after (run ops) s
  = last_recorded ops (fst (run ops s)) (fst (I2CDevice.getBusStatus s)).
Proof.
  unfold status_after.
  assert (G : forall s', fst (I2CDevice.getBusStatus s') = m_status (this s'))
    by (now intros [d w]).
  rewrite !G. apply run_records.
Qed.


Lemma exec_wire_independent o (d1 d2 : I2CDevice.obj) (w : W) :
  prints_to_wire o = false ->
  dev_address d1 = dev_address d2 ->
  wire (snd (exec o (mkStore d1 w))) = wire (snd (exec o (mkStore d2 w))).
Proof.
  intros quiet same.
  destruct o; unfold exec, bind, ret; by_equations; rewrite ?same;
    try reflexivity; discriminate quiet.
Qed.


Lemma run_length ops s : length (fst (run ops s)) = length ops.
Proof.
  revert s. induction ops as [|o rest IH]; intros s; [reflexivity|].
  rewrite run_cons. cbn [fst length]. now rewrite IH.
Qed.

(** What one call leaves of the object: the address, and the status
    [recorded] gives. *)
Lemma exec_object o s :
  this (snd (exec o s))
  = I2CDevice.set_status
      (recorded o (fst (exec o s)) (m_status (this s))) (this s).
Proof.
  pose proof (exec_keeps_address o s) as A.
  pose proof (exec_records o s) as R.
  destruct (this (snd (exec o s))) as [a' st'].
  cbn [dev_address m_status] in A, R. unfold I2CDevice.set_status.
  now rewrite A, R.
Qed.

End Programs.

Section Traces.
Context {W : Type} {TW : TwoWire W} {P : Type} {PR : Print P}.
Implicit Types (s : Store I2CDevice.obj W) (o : op P) (ops : list (op P)).

(** On the call-recording transport a call returns what it returns on the
    transport underneath and leaves the same object and the same transport
    state; the record grows by the calls of [calls_of_op]. *)
Lemma exec_logged o (d : I2CDevice.obj) (l : list call) (w : W) :
  exec o (mkStore d (mkLogged l w))
  = (fst (exec o (mkStore d w)),
     mkStore (this (snd (exec o (mkStore d w))))
       (mkLogged (l ++ calls_of_op (dev_address d) (m_status d) o)
                 (wire (snd (exec o (mkStore d w)))))).
Proof.
  destruct o; unfold exec, bind, ret; by_equations;
    cbn [calls_of_op wire_beginTransmission wire_write wire_write_buf
         wire_available wire_read wire_endTransmission
         wire_endTransmission_stop wire_requestFrom wire_print wire_println
         Logged_TwoWire calls inner];
    unfold logged; cbn [calls inner];
    rewrite ?app_nil_r, <- ?app_assoc;
    try reflexivity;
    match goal with
    | |- context [let (_, _) := ?c in _] => now destruct c
    end.
Qed.

Lemma run_logged ops (d : I2CDevice.obj) (l : list call) (w : W) :
  run ops (mkStore d (mkLogged l w))
  = (fst (run ops (mkStore d w)),
     mkStore (this (snd (run ops (mkStore d w))))
       (mkLogged
          (l ++ calls_of_run (dev_address d) (m_status d) ops
                  (fst (run ops (mkStore d w))))
          (wire (snd (run ops (mkStore d w)))))).
Proof.
  revert d l w. induction ops as [|o rest IH]; intros d l w.
  - cbn. now rewrite app_nil_r.
  - rewrite !run_cons, exec_logged. cbn [fst snd calls_of_run].
    pose proof (exec_keeps_address o (mkStore d w)) as same.
    pose proof (exec_records o (mkStore d w)) as rec.
    destruct (exec o (mkStore d w)) as [r [d1 w1]].
    cbn [fst snd this wire] in same, rec |- *.
    rewrite IH, same, rec, app_assoc. reflexivity.
Qed.

Lemma calls_of_run_quiet (a st : uint8_t) ops (rs : list (result P)) :
  never_ends ops = true ->
  length rs = length ops ->
  calls_of_run a st ops rs = flat_map (calls_of_op a st) ops.
Proof.
  revert rs. induction ops as [|o rest IH]; intros rs quiet len;
    [reflexivity|].
  destruct rs as [|r rs']; [discriminate len|].
  apply andb_prop in quiet. destruct quiet as [Ho Hrest].
  cbn [calls_of_run flat_map].
  assert (E : recorded o r st = st).
  { unfold recorded. destruct r; try reflexivity.
    now destruct (ends_transmission o). }
  rewrite E, IH; [reflexivity | exact Hrest | now injection len].
Qed.


(** X4: [detect] is [beginTransmission] followed by [endTransmission] with the
    result left unrecorded: it answers [true] exactly when that pair would
    return [SUCCESS] and leaves the transport as the pair would, but the
    pair stores the status it returns while [detect] keeps the old one. *)
Theorem detect_is_unrecorded_transaction s :
  let pair := (I2CDevice.beginTransmission ;; I2CDevice.endTransmission) in
  (fst (I2CDevice.detect s) = true <-> fst (pair s) = SUCCESS)
  /\ wire (snd (I2CDevice.detect s)) = wire (snd (pair s))
  /\ status_after pair s = fst (pair s)
  /\ status_after I2CDevice.detect s = fst (I2CDevice.getBusStatus s).
Proof.
  intros pair. subst pair. unfold status_after, bind. destruct s as [d w].
  rewrite detect_eq, beginTransmission_eq, endTransmission_eq.
  cbn [fst snd wire this].
  split; [|repeat split].
  rewrite Z.eqb_eq. apply promote_zero_iff.
Qed.

End Traces.

(** ** The owner's public interface *)

Section OwnerPrograms.
Context {W : Type} {TW : TwoWire W} {P : Type} {PR : Print P}.

Lemma on_device_never_ends (ops : list (owner_op P)) :
  never_ends (map on_device ops) = true.
Proof.
  induction ops as [|o rest IH]; [reflexivity|].
  cbn [map never_ends forallb]. apply andb_true_intro.
  split; [now destruct o | exact IH].
Qed.

(** X5: none of the three public member functions of [HasI2CDevice] ends a
    transmission, so no sequence of them changes the owner: its
    [getBusStatus] keeps returning what it returned at first, which for a
    freshly constructed owner is the byte [m_status] was never initialised
    to. *)
Theorem owner_never_records_status (o : HasI2CDevice.obj) (w : W)
  (a indeterminate : uint8_t) (ops : list (owner_op P)) :
  this (snd (run_owner ops (mkStore o w))) = o
  /\ fst (HasI2CDevice.getBusStatus (snd (run_owner ops (mkStore o w))))
     = fst (HasI2CDevice.getBusStatus (mkStore o w))
  /\ fst (HasI2CDevice.getBusStatus
            (snd (run_owner ops
                    (mkStore (HasI2CDevice.new a indeterminate) w))))
     = indeterminate.
Proof.
  assert (kept : forall o', this (snd (run_owner ops (mkStore o' w))) = o').
  { intros [b]. rewrite run_owner_forwards. cbn [snd].
    unfold owner_store, bus_store. cbn [this wire].
    now rewrite (run_keeps_object _ _ (on_device_never_ends ops)). }
  split; [apply kept|]. split.
  - pose proof (kept o) as K.
    destruct (run_owner ops (mkStore o w)) as [rs [o' w']].
    cbn in K. now subst o'.
  - pose proof (kept (HasI2CDevice.new a indeterminate)) as K.
    destruct (run_owner ops _) as [rs [o' w']].
    cbn in K. now subst o'.
Qed.

End OwnerPrograms.

Section OwnerTraces.
Context {W : Type} {TW : TwoWire W} {P : Type} {PR : Print P}.


End OwnerTraces.

(** ** Two devices on one transport *)

Lemma select_update_same (i : which) (d : I2CDevice.obj) (p : Pair) :
  select i (update i d p) = d.
Proof. now destruct i. Qed.

Lemma select_update_other (i j : which) (d : I2CDevice.obj) (p : Pair) :
  which_eqb i j = false -> select i (update j d p) = select i p.
Proof. now destruct i, j. Qed.

Section Shared.
Context {W : Type} {TW : TwoWire W} {P : Type} {PR : Print P}.
Implicit Types (s : Store Pair W) (prog : list (which * op P)).

Lemma call_on_eq {A : Type} (i : which) (m : M (Store I2CDevice.obj W) A) s :
  call_on i m s
  = (fst (m (mkStore (select i (this s)) (wire s))),
     mkStore
       (update i (this (snd (m (mkStore (select i (this s)) (wire s)))))
               (this s))
       (wire (snd (m (mkStore (select i (this s)) (wire s)))))).
Proof.
  unfold call_on. now destruct (m _).
Qed.

Lemma run_shared_cons (i : which) (o : op P) prog s :
  run_shared ((i, o) :: prog) s
  = (fst (call_on i (exec o) s)
       :: fst (run_shared prog (snd (call_on i (exec o) s))),
     snd (run_shared prog (snd (call_on i (exec o) s)))).
Proof.
  cbn [run_shared]. unfold bind, ret.
  destruct (call_on i (exec o) s) as [r s1]. cbn [fst snd].
  now destruct (run_shared prog s1).
Qed.

(** What one call on device [j] does to the status device [i] has on
    record. *)
Lemma call_on_records (i j : which) (o : op P) s :
  m_status (select i (this (snd (call_on j (exec o) s))))
  = (if which_eqb i j
     then recorded o (fst (call_on j (exec o) s)) (m_status (select i (this s)))
     else m_status (select i (this s))).
Proof.
  rewrite call_on_eq. cbn [fst snd this].
  destruct (which_eqb i j) eqn:E.
  - assert (i = j) as -> by (now destruct i, j).
    rewrite select_update_same. apply exec_records.
  - now rewrite select_update_other.
Qed.

Lemma call_on_keeps_address (i j : which) (o : op P) s :
  dev_address (select i (this (snd (call_on j (exec o) s))))
  = dev_address (select i (this s)).
Proof.
  rewrite call_on_eq. cbn [fst snd this].
  destruct (which_eqb i j) eqn:E.
  - assert (i = j) as -> by (now destruct i, j).
    rewrite select_update_same.
    apply (exec_keeps_address o (mkStore (select j (this s)) (wire s))).
  - now rewrite select_update_other.
Qed.

(** X7: the status is the device's own, not the transport's: after any
    interleaving of calls on two devices that share a transport, each
    device's [getBusStatus] reports what the last [endTransmission] made on
    that device returned, whatever was ended on the other in between, and
    each keeps its address. *)
Theorem shared_status_is_per_device (i : which) prog s :
  fst (I2CDevice.getBusStatus
         (mkStore (select i (this (snd (run_shared prog s))))
                  (wire (snd (run_shared prog s)))))
  = last_recorded_on i prog (fst (run_shared prog s))
      (m_status (select i (this s)))
  /\ dev_address (select i (this (snd (run_shared prog s))))
     = dev_address (select i (this s)).
Proof.
  rewrite getBusStatus_eq. cbn [fst].
  revert s. induction prog as [|[j o] rest IH]; intros s.
  - split; reflexivity.
  - rewrite run_shared_cons. cbn [fst snd last_recorded_on].
    destruct (IH (snd (call_on j (exec o) s))) as [St Ad].
    rewrite St, Ad, call_on_records, call_on_keeps_address.
    split; reflexivity.
Qed.

End Shared.

Section SharedTraces.
Context {W : Type} {TW : TwoWire W} {P : Type} {PR : Print P}.

Lemma run_shared_logged (prog : list (which * op P)) (p : Pair)
  (l : list call) (w : W) :
  run_shared prog (mkStore p (mkLogged l w))
  = (fst (run_shared prog (mkStore p w)),
     mkStore (this (snd (run_shared prog (mkStore p w))))
       (mkLogged
          (l ++ calls_of_shared p prog (fst (run_shared prog (mkStore p w))))
          (wire (snd (run_shared prog (mkStore p w)))))).
Proof.
  revert p l w. induction prog as [|[j o] rest IH]; intros p l w.
  - cbn. now rewrite app_nil_r.
  - rewrite !run_shared_cons, !call_on_eq. cbn [fst snd this wire].
    rewrite exec_logged. cbn [fst snd this wire calls_of_shared].
    rewrite IH, exec_object. cbn [this].
    unfold after_call. now rewrite <- app_assoc.
Qed.


End SharedTraces.

(** On the simulated bus: device A at 0x50 (present) begins a write, device
    B at 0x51 (absent) begins one before A ends, and A's [endTransmission]
    then reports B's missing acknowledgement; B's status stays as it was. *)
Example interleaved_transmissions :
  let p := mkPair (I2CDevice.new x50 xff) (I2CDevice.new x51 xff) in
  let r := run_shared (P:=string)
             [(DevA, OpBeginTransmission); (DevB, OpBeginTransmission);
              (DevA, OpEndTransmission);
              (DevA, OpGetBusStatus); (DevB, OpGetBusStatus)]
             (mkStore p (idle_bus None)) in
  fst r = [RVoid; RVoid; RByte NACK_ON_ADDRESS;
           RByte NACK_ON_ADDRESS; RByte xff].
Proof. reflexivity. Qed.

(** X1 on the simulated bus, a program without [endTransmission]: a probe, a
    request, a read and a write leave the status at 3. *)
Lemma status_survives_other_calls_witness :
  let s := mkStore (I2CDevice.mk x50 NACK_ON_DATA) (idle_bus None) in
  let ops := [OpDetect; OpRequestBytes x02; OpRead; OpWrite xaa;
              OpPrintBusStatus (Separate EmptyString);
              OpPrintBusStatus TheWire] in
  this (snd (run ops s)) = this s
  /\ status_after (run ops) s = fst (I2CDevice.getBusStatus s).
Proof.
  apply status_survives_other_calls. reflexivity.
Defined.


(** Printed to the transport, the status does reach it: the same two
    devices leave different bytes queued. *)
Example status_printed_to_the_wire :
  let ops := [OpBeginTransmission; OpPrintBusStatus (P:=string) TheWire] in
  wire (snd (run ops (mkStore (I2CDevice.mk x50 SUCCESS) (idle_bus None))))
  <> wire (snd (run ops (mkStore (I2CDevice.mk x50 NACK_ON_DATA)
                                 (idle_bus None)))).
Proof.
  cbv zeta. intros E. apply (f_equal fk_tx) in E.
  vm_compute in E. discriminate E.
Qed.

(** The calls of a program that prints to the transport after a refused
    write: the line printed carries the status 3 of that write. *)
Example calls_with_print_to_the_wire :
  calls_made
    (run (P:=string)
       [OpBeginTransmission; OpWrite xaa; OpEndTransmission;
        OpPrintBusStatus TheWire])
    (I2CDevice.new x50 x00) writes_nacked
  = [CallBeginTransmission x50; CallWrite xaa; CallEndTransmission;
     CallPrint "Current I2C status : "; CallPrintln NACK_ON_DATA].
Proof. reflexivity. Qed.
